(** * Validator filter (pkg/filters/validator/validator.go)

    A shallow embedding of the Validator filter: its spec, the
    configure-time check [Spec.Validate], the request-time composition
    [Validator.handle], and the lifecycle [Init] / [reload] / [Inherit] /
    [Close].

    The concrete scheme algorithms (header matching, JWT, request
    signatures, OAuth2 introspection, basic-auth lookup) live outside this
    file; a scheme validator is represented by the verdict its [Validate]
    reaches on a request: [None] for nil, [Some err] for an error whose
    [Error()] is [err]. *)

From Stdlib Require Import ZArith String List.
From stdpp Require Import base gmap strings list.

Import ListNotations.
Open Scope string_scope.
Open Scope list_scope.

(** ** Requests, responses and the HTTP context *)

Definition error := string.
Definition Header := list (string * string).

Record Request := mkRequest {
  req_method : string;
  req_path : string;
  req_header : Header
}.

Record Response := mkResponse {
  resp_status : Z;
  resp_header : Header
}.

(** The part of [context.HTTPContext] that [handle] touches: the request,
    the response, and the tags added with [AddTag]. *)
Record HTTPContext := mkHTTPContext {
  ctx_request : Request;
  ctx_response : Response;
  ctx_tags : list string
}.

(** [ctx.Response().SetStatusCode(status)] *)
Definition SetStatusCode (ctx : HTTPContext) (status : Z) : HTTPContext :=
  {| ctx_request := ctx_request ctx;
     ctx_response := {| resp_status := status;
                        resp_header := resp_header (ctx_response ctx) |};
     ctx_tags := ctx_tags ctx |}.

(** [ctx.AddTag(tag)] *)
Definition AddTag (ctx : HTTPContext) (tag : string) : HTTPContext :=
  {| ctx_request := ctx_request ctx;
     ctx_response := ctx_response ctx;
     ctx_tags := (ctx_tags ctx ++ [tag])%list |}.

(** [stringtool.Cat] *)
Definition Cat (a b : string) : string := String.append a b.

(** [http.StatusBadRequest], [http.StatusUnauthorized] *)
Definition StatusBadRequest : Z := 400.
Definition StatusUnauthorized : Z := 401.

Definition resultInvalid : string := "invalid".

(** ** Scheme specs and scheme validators *)

(** The five schemes, in the order their fields appear in [Spec]. *)
Inductive scheme := SchHeaders | SchJWT | SchSignature | SchOAuth2 | SchBasicAuth.

(** [httpheader.ValidatorSpec]: the rule its validator applies to the
    request's header. *)
Record HeaderValidatorSpec := { hs_rule : Header -> option error }.

(** [JWTValidatorSpec], [signer.Spec], [OAuth2ValidatorSpec],
    [BasicAuthValidatorSpec]: the rule their validator applies to the
    request. *)
Record SchemeSpec := { ss_rule : Request -> option error }.

(** [httpheader.Validator] *)
Record HeaderValidator := { hv_validate : Header -> option error }.
(** [JWTValidator] *)
Record JWTValidator := { jwt_validate : Request -> option error }.
(** [signer.Signer] *)
Record Signer := { signer_verify : Request -> option error }.
(** [OAuth2Validator] *)
Record OAuth2Validator := { oauth2_validate : Request -> option error }.
(** [BasicAuthValidator]: it owns a releasable resource, named by [ba_id]. *)
Record BasicAuthValidator := { ba_id : nat; ba_validate : Request -> option error }.

(** Modelled from the spec: [filters.BaseSpec] is not under src/. The
    source embeds it inline in [Spec], compares it with [==] (so it is a
    comparable struct) and reads the filter instance's name from it
    ([Spec.Name()]); it is modelled by the name and kind of the filter
    instance, the zero value having both empty. *)
Record BaseSpec := mkBaseSpec { base_name : string; base_kind : string }.

Definition zeroBaseSpec : BaseSpec := {| base_name := ""; base_kind := "" |}.

(** [Spec]: every scheme field is a pointer, [None] being nil. *)
Record Spec := mkSpec {
  baseSpec : BaseSpec;
  Headers : option HeaderValidatorSpec;
  JWT : option SchemeSpec;
  Signature : option SchemeSpec;
  OAuth2 : option SchemeSpec;
  BasicAuth : option SchemeSpec
}.

(** [spec == (Spec{})]: every field equals its zero value; a pointer
    equals nil exactly when it is [None]. *)
Definition spec_is_zero (s : Spec) : bool :=
  String.eqb (base_name (baseSpec s)) (base_name zeroBaseSpec) &&
  String.eqb (base_kind (baseSpec s)) (base_kind zeroBaseSpec) &&
  match Headers s, JWT s, Signature s, OAuth2 s, BasicAuth s with
  | None, None, None, None, None => true
  | _, _, _, _, _ => false
  end.

(** [func (spec Spec) Validate() error] *)
Definition Spec_Validate (s : Spec) : option error :=
  if spec_is_zero s then Some "none of the validations are defined" else None.

(** [Validator] *)
Record Validator := mkValidator {
  spec : option Spec;
  headers : option HeaderValidator;
  jwt : option JWTValidator;
  signer : option Signer;
  oauth2 : option OAuth2Validator;
  basicAuth : option BasicAuthValidator
}.

(** [CreateInstance]: [&Validator{}]. *)
Definition CreateInstance : Validator :=
  {| spec := None; headers := None; jwt := None; signer := None;
     oauth2 := None; basicAuth := None |}.

(** ** [Validator.handle] *)

(** What one call of [handle] yields: the result string, the context
    after it, and (instrumentation) the schemes whose [Validate] was
    called, in call order. *)
Record Outcome := mkOutcome {
  result : string;
  octx : HTTPContext;
  calls : list scheme
}.

(** [prepareErrorResponse] *)
Definition prepareErrorResponse (ctx : HTTPContext) (status : Z)
    (tagPrefix : string) (err : error) : HTTPContext :=
  AddTag (SetStatusCode ctx status) (Cat tagPrefix err).

(** One [if v.x != nil { if err := v.x.Validate(..); err != nil { ... } }]
    block: [verdict] is [None] when the field is nil, otherwise the result
    of its [Validate]; [k] is the rest of [handle]. *)
Definition check_scheme (s : scheme) (verdict : option (option error)) (status : Z)
    (tagPrefix : string) (ctx : HTTPContext) (called : list scheme)
    (k : HTTPContext -> list scheme -> Outcome) : Outcome :=
  match verdict with
  | None => k ctx called
  | Some None => k ctx (called ++ [s])%list
  | Some (Some err) =>
      {| result := resultInvalid;
         octx := prepareErrorResponse ctx status tagPrefix err;
         calls := (called ++ [s])%list |}
  end.

Definition handle (v : Validator) (ctx : HTTPContext) : Outcome :=
  let req := ctx_request ctx in
  check_scheme SchHeaders (option_map (fun h => hv_validate h (req_header req)) (headers v))
    StatusBadRequest "header validator: " ctx []
  (fun ctx called =>
  check_scheme SchJWT (option_map (fun j => jwt_validate j req) (jwt v))
    StatusUnauthorized "JWT validator: " ctx called
  (fun ctx called =>
  check_scheme SchSignature (option_map (fun sg => signer_verify sg req) (signer v))
    StatusUnauthorized "signature validator: " ctx called
  (fun ctx called =>
  check_scheme SchOAuth2 (option_map (fun o => oauth2_validate o req) (oauth2 v))
    StatusUnauthorized "oauth2 validator: " ctx called
  (fun ctx called =>
  check_scheme SchBasicAuth (option_map (fun b => ba_validate b req) (basicAuth v))
    StatusUnauthorized "http basic validator: " ctx called
  (fun ctx called =>
  {| result := ""; octx := ctx; calls := called |}))))).

(** ** Views used to state properties of [handle] *)

(** The fixed precedence order of the schemes in [handle]. *)
Definition precedence : list scheme :=
  [SchHeaders; SchJWT; SchSignature; SchOAuth2; SchBasicAuth].

Definition is_configured (v : Validator) (s : scheme) : bool :=
  match s with
  | SchHeaders => bool_decide (is_Some (headers v))
  | SchJWT => bool_decide (is_Some (jwt v))
  | SchSignature => bool_decide (is_Some (signer v))
  | SchOAuth2 => bool_decide (is_Some (oauth2 v))
  | SchBasicAuth => bool_decide (is_Some (basicAuth v))
  end.

(** The configured schemes, in precedence order. *)
Definition configured (v : Validator) : list scheme :=
  List.filter (is_configured v) precedence.

(** What scheme [s]'s validator answers on [req]; [None] also when [s] is
    not configured. *)
Definition verdict (v : Validator) (req : Request) (s : scheme) : option error :=
  match s with
  | SchHeaders => h ← headers v; hv_validate h (req_header req)
  | SchJWT => j ← jwt v; jwt_validate j req
  | SchSignature => sg ← signer v; signer_verify sg req
  | SchOAuth2 => o ← oauth2 v; oauth2_validate o req
  | SchBasicAuth => b ← basicAuth v; ba_validate b req
  end.

(** The status a rejection by [s] sets, and the label its tag starts with. *)
Definition status_of (s : scheme) : Z :=
  match s with SchHeaders => 400 | _ => 401 end.

Definition tag_label (s : scheme) : string :=
  match s with
  | SchHeaders => "header"
  | SchJWT => "JWT"
  | SchSignature => "signature"
  | SchOAuth2 => "oauth2"
  | SchBasicAuth => "http basic"
  end.

Definition tag_prefix (s : scheme) : string := Cat (tag_label s) " validator: ".

Definition accepts (v : Validator) (req : Request) (s : scheme) : Prop :=
  verdict v req s = None.

(** ** Lifecycle: construction and release of scheme validators *)

(** What the lifecycle does, in order: a scheme validator constructed, or
    the [Close] of the BasicAuth validator owning resource [id]. *)
Inductive Event := EvNew (s : scheme) | EvClose (id : nat).

Inductive ResState := ResLive | ResReleased.

(** The world the lifecycle acts on: the next free resource id, the state
    of every resource owned by a BasicAuth validator, and the event log. *)
Record World := mkWorld {
  w_next : nat;
  w_res : gmap nat ResState;
  w_log : list Event
}.

Definition emit (e : Event) (w : World) : World :=
  {| w_next := w_next w; w_res := w_res w; w_log := w_log w ++ [e] |}.

(** Modelled from the spec: the constructors [httpheader.NewValidator],
    [NewJWTValidator], [signer.CreateFromSpec] and [NewOAuth2Validator] are
    not under src/. Spec 4.2 and 6: each builds, from its scheme spec, a
    validator whose [Validate] applies that spec's rule; none owns a
    releasable resource. *)
Definition NewHeaderValidator (hs : HeaderValidatorSpec) (w : World) : HeaderValidator * World :=
  ({| hv_validate := hs_rule hs |}, emit (EvNew SchHeaders) w).

Definition NewJWTValidator (js : SchemeSpec) (w : World) : JWTValidator * World :=
  ({| jwt_validate := ss_rule js |}, emit (EvNew SchJWT) w).

Definition CreateFromSpec (ss : SchemeSpec) (w : World) : Signer * World :=
  ({| signer_verify := ss_rule ss |}, emit (EvNew SchSignature) w).

Definition NewOAuth2Validator (os : SchemeSpec) (w : World) : OAuth2Validator * World :=
  ({| oauth2_validate := ss_rule os |}, emit (EvNew SchOAuth2) w).

(** Modelled from the spec: [NewBasicAuthValidator] is not under src/.
    Spec 3: a BasicAuth validator owns a releasable resource (a background
    credential-store watcher); it is allocated live under a fresh id. *)
Definition NewBasicAuthValidator (bs : SchemeSpec) (w : World) : BasicAuthValidator * World :=
  let id := w_next w in
  ({| ba_id := id; ba_validate := ss_rule bs |},
   {| w_next := S id; w_res := <[id := ResLive]> (w_res w);
      w_log := w_log w ++ [EvNew SchBasicAuth] |}).

(** Modelled from the spec: [BasicAuthValidator.Close] is not under src/.
    Spec 3 and 4.2: [Release()] releases the resource the validator owns;
    it leaves that resource released. *)
Definition BasicAuthValidator_Close (b : BasicAuthValidator) (w : World) : World :=
  {| w_next := w_next w;
     w_res := <[ba_id b := ResReleased]> (w_res w);
     w_log := w_log w ++ [EvClose (ba_id b)] |}.

(** Field assignments [v.spec = ...], [v.headers = ...], ... *)
Definition set_spec (v : Validator) (s : Spec) : Validator :=
  {| spec := Some s; headers := headers v; jwt := jwt v; signer := signer v;
     oauth2 := oauth2 v; basicAuth := basicAuth v |}.
Definition set_headers (v : Validator) (h : HeaderValidator) : Validator :=
  {| spec := spec v; headers := Some h; jwt := jwt v; signer := signer v;
     oauth2 := oauth2 v; basicAuth := basicAuth v |}.
Definition set_jwt (v : Validator) (j : JWTValidator) : Validator :=
  {| spec := spec v; headers := headers v; jwt := Some j; signer := signer v;
     oauth2 := oauth2 v; basicAuth := basicAuth v |}.
Definition set_signer (v : Validator) (sg : Signer) : Validator :=
  {| spec := spec v; headers := headers v; jwt := jwt v; signer := Some sg;
     oauth2 := oauth2 v; basicAuth := basicAuth v |}.
Definition set_oauth2 (v : Validator) (o : OAuth2Validator) : Validator :=
  {| spec := spec v; headers := headers v; jwt := jwt v; signer := signer v;
     oauth2 := Some o; basicAuth := basicAuth v |}.
Definition set_basicAuth (v : Validator) (b : BasicAuthValidator) : Validator :=
  {| spec := spec v; headers := headers v; jwt := jwt v; signer := signer v;
     oauth2 := oauth2 v; basicAuth := Some b |}.

(** [Validator.reload]; [s] is [*v.spec], which [Init] has just set. A
    field whose spec is nil is left as it was. *)
Definition reload (s : Spec) (v : Validator) (w : World) : Validator * World :=
  let '(v, w) :=
    match Headers s with
    | Some hs => let '(h, w) := NewHeaderValidator hs w in (set_headers v h, w)
    | None => (v, w)
    end in
  let '(v, w) :=
    match JWT s with
    | Some js => let '(j, w) := NewJWTValidator js w in (set_jwt v j, w)
    | None => (v, w)
    end in
  let '(v, w) :=
    match Signature s with
    | Some ss => let '(sg, w) := CreateFromSpec ss w in (set_signer v sg, w)
    | None => (v, w)
    end in
  let '(v, w) :=
    match OAuth2 s with
    | Some os => let '(o, w) := NewOAuth2Validator os w in (set_oauth2 v o, w)
    | None => (v, w)
    end in
  match BasicAuth s with
  | Some bs => let '(b, w) := NewBasicAuthValidator bs w in (set_basicAuth v b, w)
  | None => (v, w)
  end.

(** [Validator.Init] *)
Definition Init (v : Validator) (s : Spec) (w : World) : Validator * World :=
  reload s (set_spec v s) w.

(** [Validator.Close] *)
Definition Close (v : Validator) (w : World) : Validator * World :=
  match basicAuth v with
  | Some b => (v, BasicAuthValidator_Close b w)
  | None => (v, w)
  end.

(** [Validator.Inherit]: [previousGeneration.Close()], then [v.Init(spec)]. *)
Definition Inherit (v : Validator) (s : Spec) (prev : Validator) (w : World)
    : Validator * World :=
  let '(_, w) := Close prev w in
  Init v s w.

(** Views used to state properties of the lifecycle. *)
Definition is_construction (e : Event) : Prop :=
  match e with EvNew _ => True | EvClose _ => False end.

(** The releases [Close prev] performs. *)
Definition released_by (prev : Validator) : list Event :=
  match basicAuth prev with
  | Some b => [EvClose (ba_id b)]
  | None => []
  end.

(** The constructions [reload s] performs, in order. *)
Definition spec_constructions (s : Spec) : list Event :=
  match Headers s with Some _ => [EvNew SchHeaders] | None => [] end ++
  match JWT s with Some _ => [EvNew SchJWT] | None => [] end ++
  match Signature s with Some _ => [EvNew SchSignature] | None => [] end ++
  match OAuth2 s with Some _ => [EvNew SchOAuth2] | None => [] end ++
  match BasicAuth s with Some _ => [EvNew SchBasicAuth] | None => [] end.

(** "Every release in [log] comes after every construction in it." *)
Definition release_after_construction (log : list Event) : Prop :=
  forall i j id s, log !! i = Some (EvClose id) -> log !! j = Some (EvNew s) -> j < i.

(** ** The filter kind *)

(** [filters.Kind], as far as this filter fills it in. *)
Record FilterKind := mkFilterKind {
  kind_Name : string;
  kind_Description : string;
  kind_Results : list string;
  kind_DefaultSpec : Spec
}.

(** [kind]: [DefaultSpec] returns [&Spec{}]. *)
Definition kind : FilterKind :=
  {| kind_Name := "Validator";
     kind_Description := "Validator validates HTTP request.";
     kind_Results := [resultInvalid];
     kind_DefaultSpec := {| baseSpec := zeroBaseSpec; Headers := None; JWT := None;
                            Signature := None; OAuth2 := None; BasicAuth := None |} |}.

(** Whether spec [s] sets the field of scheme [sch]. *)
Definition spec_has (s : Spec) (sch : scheme) : bool :=
  match sch with
  | SchHeaders => bool_decide (is_Some (Headers s))
  | SchJWT => bool_decide (is_Some (JWT s))
  | SchSignature => bool_decide (is_Some (Signature s))
  | SchOAuth2 => bool_decide (is_Some (OAuth2 s))
  | SchBasicAuth => bool_decide (is_Some (BasicAuth s))
  end.

(** ** Concrete inputs *)

Definition ex_req : Request :=
  {| req_method := "GET"; req_path := "/api"; req_header := [] |}.

Definition ex_ctx : HTTPContext :=
  {| ctx_request := ex_req;
     ctx_response := {| resp_status := 200; resp_header := [] |};
     ctx_tags := [] |}.

(** A header rule requiring "X-Api-Key". *)
Definition require_api_key : HeaderValidatorSpec :=
  {| hs_rule := fun h =>
       match List.find (fun kv => String.eqb (fst kv) "X-Api-Key") h with
       | Some _ => None
       | None => Some "header X-Api-Key is required"
       end |}.

Definition ex_base : BaseSpec := {| base_name := "validator"; base_kind := "Validator" |}.

Definition ex_spec_headers_jwt : Spec :=
  {| baseSpec := ex_base; Headers := Some require_api_key;
     JWT := Some {| ss_rule := fun _ => Some "no token" |};
     Signature := None; OAuth2 := None; BasicAuth := None |}.

(** A filter spec with a name and kind but no validation. *)
Definition ex_spec_no_scheme : Spec :=
  {| baseSpec := ex_base; Headers := None; JWT := None; Signature := None;
     OAuth2 := None; BasicAuth := None |}.

Definition ex_world : World := {| w_next := 0; w_res := ∅; w_log := [] |}.

(** A gate configured with BasicAuth only, and the world after it. *)
Definition ex_prev_gen : Validator * World :=
  Init CreateInstance
    {| baseSpec := ex_base; Headers := None; JWT := None; Signature := None;
       OAuth2 := None; BasicAuth := Some {| ss_rule := fun _ => None |} |}
    ex_world.

(** A spec with headers and BasicAuth. *)
Definition ex_spec_headers_basic : Spec :=
  {| baseSpec := ex_base; Headers := Some require_api_key; JWT := None;
     Signature := None; OAuth2 := None;
     BasicAuth := Some {| ss_rule := fun _ => None |} |}.

(** ** Properties of [handle] *)

(** [handle] in one statement: the schemes it calls are a prefix of the
    configured ones, all but the last of them accepted, and either nothing
    rejected (pass-through, context untouched, every configured scheme
    called) or the last one called rejected and the error response was
    prepared for it. *)
Lemma handle_spec (v : Validator) (ctx : HTTPContext) :
  let o := handle v ctx in
  let req := ctx_request ctx in
  calls o = take (length (calls o)) (configured v) /\
  Forall (accepts v req) (removelast (calls o)) /\
  ((result o = "" /\ octx o = ctx /\ calls o = configured v /\
    Forall (accepts v req) precedence) \/
   (result o = resultInvalid /\
    exists s err, last (calls o) = Some s /\ verdict v req s = Some err /\
      octx o = prepareErrorResponse ctx (status_of s) (tag_prefix s) err)).
Proof.
  unfold handle, check_scheme, configured, is_configured, accepts, verdict.
  destruct v as [sp h j sg o b]; simpl.
  destruct h as [h|], j as [j|], sg as [sg|], o as [o|], b as [b|]; simpl;
  repeat case_match; simplify_eq/=.
  all: split; [reflexivity|]; split; [repeat constructor|].
  all: first
    [ left; split; [reflexivity|]; split; [reflexivity|]; split; [reflexivity|];
      unfold precedence; repeat constructor
    | right; split; [reflexivity|]; do 2 eexists; split; [reflexivity|];
      split; reflexivity ].
Qed.

Lemma handle_result_cases (v : Validator) (ctx : HTTPContext) :
  result (handle v ctx) = "" \/ result (handle v ctx) = resultInvalid.
Proof.
  destruct (handle_spec v ctx) as (_ & _ & [(-> & _) | (-> & _)]); auto.
Qed.

Lemma resultInvalid_not_pass : resultInvalid <> "".
Proof. discriminate. Qed.

(** The rejecting scheme, when [handle] rejects. *)
Lemma handle_reject_last (v : Validator) (ctx : HTTPContext) :
  result (handle v ctx) = resultInvalid ->
  exists pre s err,
    calls (handle v ctx) = pre ++ [s] /\
    Forall (accepts v (ctx_request ctx)) pre /\
    verdict v (ctx_request ctx) s = Some err /\
    octx (handle v ctx) = prepareErrorResponse ctx (status_of s) (tag_prefix s) err.
Proof.
  intros Hr.
  destruct (handle_spec v ctx) as (_ & Hpre & [(Hp & _) | (_ & s & err & Hl & Hv & Ho)]).
  - rewrite Hr in Hp. discriminate.
  - apply last_Some in Hl as [pre Hpre'].
    exists pre, s, err. rewrite Hpre' in Hpre |- *.
    rewrite removelast_last in Hpre. auto.
Qed.

Lemma handle_calls_prefix (v : Validator) (ctx : HTTPContext) :
  exists rest, configured v = calls (handle v ctx) ++ rest.
Proof.
  destruct (handle_spec v ctx) as (Hpref & _).
  set (n := length (calls (handle v ctx))) in Hpref.
  exists (drop n (configured v)). rewrite Hpref. by rewrite take_drop.
Qed.

Lemma scheme_in_precedence (s : scheme) : s ∈ precedence.
Proof. destruct s; unfold precedence; set_solver. Qed.

(** Two decompositions of a scheme list at a first rejecting scheme (all
    schemes before it accepting) are the same. *)
Lemma first_reject_unique (v : Validator) (req : Request)
    (pre : list scheme) (s : scheme) (e : error) (rest : list scheme)
    (pre' : list scheme) (s' : scheme) (e' : error) (rest' : list scheme) :
  pre ++ s :: rest = pre' ++ s' :: rest' ->
  Forall (accepts v req) pre -> Forall (accepts v req) pre' ->
  verdict v req s = Some e -> verdict v req s' = Some e' ->
  pre = pre' /\ s = s'.
Proof.
  revert pre'.
  induction pre as [|x pre IH]; intros [|y pre'] Heq Ha Ha' Hv Hv';
    simpl in Heq; injection Heq as Hxy Heq.
  - by subst.
  - subst. inversion Ha' as [|? ? Hy _]. unfold accepts in Hy. congruence.
  - subst. inversion Ha as [|? ? Hx _]. unfold accepts in Hx. congruence.
  - subst. inversion Ha; inversion Ha'; subst.
    destruct (IH pre' Heq) as [-> ->]; auto.
Qed.

(** C1: [handle] calls the configured scheme validators in the order
    Headers, JWT, Signature, OAuth2, BasicAuth, skipping absent ones: the
    calls made are a prefix of the configured schemes in that order. If a
    configured scheme rejects and every configured scheme before it
    accepts, [handle] returns "invalid" and its calls end with that scheme:
    no later scheme's [Validate] is called. Conversely a rejection is
    always of this form, and a pass called every configured scheme, each
    of which accepted. *)
Theorem handle_precedence_short_circuit (v : Validator) (ctx : HTTPContext) :
  let o := handle v ctx in
  let req := ctx_request ctx in
  (exists rest, configured v = calls o ++ rest) /\
  (forall pre s err rest,
     configured v = pre ++ s :: rest ->
     Forall (accepts v req) pre -> verdict v req s = Some err ->
     result o = resultInvalid /\ calls o = pre ++ [s]) /\
  (result o = resultInvalid ->
     exists pre s err rest,
       calls o = pre ++ [s] /\ configured v = pre ++ s :: rest /\
       Forall (accepts v req) pre /\ verdict v req s = Some err) /\
  (result o = "" -> calls o = configured v /\ Forall (accepts v req) (calls o)).
Proof.
  cbv zeta.
  assert (Hrej : result (handle v ctx) = resultInvalid ->
     exists pre s err rest,
       calls (handle v ctx) = pre ++ [s] /\ configured v = pre ++ s :: rest /\
       Forall (accepts v (ctx_request ctx)) pre /\
       verdict v (ctx_request ctx) s = Some err).
  { intros Hr.
    destruct (handle_reject_last v ctx Hr) as (pre & s & err & Hc & Hacc & Hv & _).
    destruct (handle_calls_prefix v ctx) as [rest Hrest].
    exists pre, s, err, rest. rewrite Hrest, Hc. by rewrite <- app_assoc. }
  split; [apply handle_calls_prefix | split; [| split; [exact Hrej |]]].
  - intros pre s err rest Hconf Hacc Hv.
    assert (Hr : result (handle v ctx) = resultInvalid).
    { destruct (handle_result_cases v ctx) as [Hr | Hr]; [| done].
      destruct (handle_spec v ctx) as (_ & _ & [(_ & _ & _ & Hf) | (Hi & _)]).
      - rewrite Forall_forall in Hf. specialize (Hf s (scheme_in_precedence s)).
        unfold accepts in Hf. congruence.
      - rewrite Hr in Hi. discriminate. }
    split; [done |].
    destruct (Hrej Hr) as (pre' & s' & err' & rest' & Hc & Hconf' & Hacc' & Hv').
    rewrite Hconf in Hconf'.
    destruct (first_reject_unique v (ctx_request ctx) pre s err rest pre' s' err' rest'
                Hconf' Hacc Hacc' Hv Hv') as [-> ->].
    exact Hc.
  - intros Hr.
    destruct (handle_spec v ctx) as (_ & _ & [(_ & _ & Hc & Hf) | (Hi & _)]).
    + split; [done |]. rewrite Forall_forall in Hf |- *.
      intros x _. apply Hf, scheme_in_precedence.
    + rewrite Hr in Hi. discriminate.
Qed.

(** C3: when [handle] rejects, the status set on the response is the
    rejecting scheme's: 400 (Bad Request) for Headers, 401 (Unauthorized)
    for JWT, Signature, OAuth2 and BasicAuth. *)
Theorem handle_reject_status (v : Validator) (ctx : HTTPContext) :
  result (handle v ctx) = resultInvalid ->
  exists s err,
    last (calls (handle v ctx)) = Some s /\
    verdict v (ctx_request ctx) s = Some err /\
    resp_status (ctx_response (octx (handle v ctx))) =
      match s with
      | SchHeaders => StatusBadRequest
      | SchJWT | SchSignature | SchOAuth2 | SchBasicAuth => StatusUnauthorized
      end.
Proof.
  intros Hr.
  destruct (handle_reject_last v ctx Hr) as (pre & s & err & Hc & _ & Hv & Ho).
  exists s, err. rewrite Hc, Ho, last_snoc. split; [done | split; [done |]].
  destruct s; reflexivity.
Qed.

(** C4: [handle] passes (returns the empty result) exactly when every
    configured scheme validator accepts the request; a validator that
    returns an error makes [handle] return "invalid"; and [handle] has no
    other outcome than these two. *)
Theorem handle_pass_iff_all_accept (v : Validator) (ctx : HTTPContext) :
  let o := handle v ctx in
  let req := ctx_request ctx in
  (result o = "" <-> Forall (accepts v req) precedence) /\
  (forall s err, verdict v req s = Some err -> result o = resultInvalid) /\
  (result o = "" \/ result o = resultInvalid).
Proof.
  cbv zeta.
  assert (Hall : forall s, s ∈ precedence) by (intros []; unfold precedence; set_solver).
  assert (Hiff : result (handle v ctx) = "" <->
                 Forall (accepts v (ctx_request ctx)) precedence).
  { split.
    - intros Hr.
      destruct (handle_spec v ctx) as (_ & _ & [(_ & _ & _ & Hf) | (Hi & _)]); auto.
      rewrite Hr in Hi. discriminate.
    - intros Hf.
      destruct (handle_result_cases v ctx) as [Hr | Hr]; [done |].
      destruct (handle_reject_last v ctx Hr) as (pre & s & err & _ & _ & Hv & _).
      rewrite Forall_forall in Hf. specialize (Hf s (Hall s)).
      unfold accepts in Hf. congruence. }
  split; [exact Hiff | split; [| apply handle_result_cases]].
  intros s err Hv.
  destruct (handle_result_cases v ctx) as [Hr | Hr]; [| done].
  apply Hiff in Hr. rewrite Forall_forall in Hr. specialize (Hr s (Hall s)).
  unfold accepts in Hr. congruence.
Qed.

(** C6: when [handle] rejects, the tag it adds to the context is the
    rejecting scheme's label ("header", "JWT", "signature", "oauth2",
    "http basic"), then " validator: ", then the validator's error. *)
Theorem handle_reject_tag (v : Validator) (ctx : HTTPContext) :
  result (handle v ctx) = resultInvalid ->
  exists s err,
    last (calls (handle v ctx)) = Some s /\
    verdict v (ctx_request ctx) s = Some err /\
    ctx_tags (octx (handle v ctx)) =
      ctx_tags ctx ++ [Cat (Cat (tag_label s) " validator: ") err].
Proof.
  intros Hr.
  destruct (handle_reject_last v ctx Hr) as (pre & s & err & Hc & _ & Hv & Ho).
  exists s, err. rewrite Hc, Ho, last_snoc. split; [done | split; [done |]].
  reflexivity.
Qed.

(** C9: on a pass [handle] leaves the context as it was; on a rejection it
    changes exactly two things: the response status, and one tag appended
    to the tags. The request and the rest of the response are untouched. *)
Theorem handle_frame (v : Validator) (ctx : HTTPContext) :
  (result (handle v ctx) = "" -> octx (handle v ctx) = ctx) /\
  (result (handle v ctx) = resultInvalid ->
     exists status tag,
       octx (handle v ctx) =
         {| ctx_request := ctx_request ctx;
            ctx_response := {| resp_status := status;
                               resp_header := resp_header (ctx_response ctx) |};
            ctx_tags := ctx_tags ctx ++ [tag] |}).
Proof.
  split.
  - intros Hr.
    destruct (handle_spec v ctx) as (_ & _ & [(_ & Ho & _) | (Hi & _)]); auto.
    rewrite Hr in Hi. discriminate.
  - intros Hr.
    destruct (handle_reject_last v ctx Hr) as (pre & s & err & _ & _ & _ & Ho).
    exists (status_of s), (Cat (tag_prefix s) err). rewrite Ho. reflexivity.
Qed.

(** The spec's scenario: headers and JWT configured, the request lacks
    the required header; the gate rejects with 400, tags the header
    validator's error, and never calls the JWT validator. *)
Example handle_scenario_missing_header :
  handle (fst (Init CreateInstance ex_spec_headers_jwt ex_world)) ex_ctx =
  {| result := "invalid";
     octx := {| ctx_request := ex_req;
                ctx_response := {| resp_status := 400; resp_header := [] |};
                ctx_tags := ["header validator: header X-Api-Key is required"] |};
     calls := [SchHeaders] |}.
Proof. reflexivity. Qed.

(** ** Configure-time validation *)

(** [Spec.Validate] rejects the zero spec. *)
Lemma Spec_Validate_zero :
  Spec_Validate {| baseSpec := zeroBaseSpec; Headers := None; JWT := None;
                   Signature := None; OAuth2 := None; BasicAuth := None |} =
  Some "none of the validations are defined".
Proof. reflexivity. Qed.

(** [Spec.Validate] accepts every spec with a scheme configured. *)
Lemma Spec_Validate_some_scheme (s : Spec) :
  is_Some (Headers s) \/ is_Some (JWT s) \/ is_Some (Signature s) \/
  is_Some (OAuth2 s) \/ is_Some (BasicAuth s) ->
  Spec_Validate s = None.
Proof.
  intros Hs. unfold Spec_Validate, spec_is_zero.
  destruct s as [b [h|] [j|] [sg|] [o|] [ba|]]; simpl in *;
    rewrite ?andb_false_r; try reflexivity.
  exfalso. destruct Hs as [[? ?]|[[? ?]|[[? ?]|[[? ?]|[? ?]]]]]; discriminate.
Qed.

(** C2: [Spec.Validate] compares the whole spec with [Spec{}], the
    embedded [BaseSpec] included, so a filter spec that carries its name
    and kind but configures no scheme is accepted. *)
Theorem Spec_Validate_accepts_named_empty_spec :
  Headers ex_spec_no_scheme = None /\ JWT ex_spec_no_scheme = None /\
  Signature ex_spec_no_scheme = None /\ OAuth2 ex_spec_no_scheme = None /\
  BasicAuth ex_spec_no_scheme = None /\
  Spec_Validate ex_spec_no_scheme = None.
Proof. repeat split. Qed.

(** ** Properties of the lifecycle *)

(** [reload s] logs exactly the constructions of the schemes [s]
    configures, in field order. *)
Lemma reload_log (s : Spec) (v : Validator) (w : World) :
  w_log (snd (reload s v w)) = w_log w ++ spec_constructions s.
Proof.
  unfold reload, spec_constructions.
  destruct s as [b [h|] [j|] [sg|] [o|] [ba|]]; simpl;
    rewrite <- ?app_assoc; simpl; rewrite ?app_nil_r; reflexivity.
Qed.

Lemma spec_constructions_are_constructions (s : Spec) :
  Forall is_construction (spec_constructions s).
Proof.
  unfold spec_constructions.
  destruct s as [b [h|] [j|] [sg|] [o|] [ba|]]; simpl; repeat constructor.
Qed.

Lemma Close_log (prev : Validator) (w : World) :
  w_log (snd (Close prev w)) = w_log w ++ released_by prev.
Proof.
  unfold Close, released_by. destruct (basicAuth prev); simpl; by rewrite ?app_nil_r.
Qed.

(** C5 (as the code has it): reconfiguring a gate previously configured
    with BasicAuth releases the previous BasicAuth validator before the
    new generation's first validator is constructed. *)
Theorem Inherit_releases_before_constructing :
  ~ release_after_construction
      (w_log (snd (Inherit CreateInstance ex_spec_headers_jwt
                           (fst ex_prev_gen) (snd ex_prev_gen)))).
Proof.
  intros H. specialize (H 1 2 0 SchHeaders eq_refl eq_refl). lia.
Qed.

(** C5, amended: [Inherit] first closes the previous generation, then
    builds the new one: its log is the releases of the previous
    generation followed by the constructions of the new spec's schemes,
    and its result is what [Init] builds; it has no failure outcome. *)
Theorem Inherit_close_then_init (v : Validator) (s : Spec) (prev : Validator) (w : World) :
  w_log (snd (Inherit v s prev w)) = w_log w ++ released_by prev ++ spec_constructions s /\
  Forall is_construction (spec_constructions s) /\
  Inherit v s prev w = Init v s (snd (Close prev w)).
Proof.
  unfold Inherit.
  destruct (Close prev w) as [p' w1] eqn:Hc.
  split; [| split; [apply spec_constructions_are_constructions | reflexivity]].
  unfold Init. rewrite reload_log.
  replace w1 with (snd (Close prev w)) by (rewrite Hc; reflexivity).
  rewrite Close_log. by rewrite <- app_assoc.
Qed.

(** C7: a second [Close] leaves the gate as the first left it: the
    validator's fields, the resource states and the id counter. *)
Theorem Close_idempotent (v : Validator) (w : World) :
  let '(v1, w1) := Close v w in
  let '(v2, w2) := Close v1 w1 in
  v2 = v1 /\ w_next w2 = w_next w1 /\ w_res w2 = w_res w1.
Proof.
  unfold Close, BasicAuthValidator_Close.
  destruct (basicAuth v) as [b|] eqn:Hb; simpl; rewrite ?Hb; simpl;
    [rewrite insert_insert_eq|]; auto.
Qed.

(** C10: [Close] leaves the validator's fields as they are, is a no-op
    without a BasicAuth validator, and touches no resource but the one the
    BasicAuth validator owns. *)
Theorem Close_frame (v : Validator) (w : World) :
  let '(v', w') := Close v w in
  headers v' = headers v /\ jwt v' = jwt v /\ signer v' = signer v /\
  oauth2 v' = oauth2 v /\ v' = v /\
  (basicAuth v = None -> w' = w) /\
  w_next w' = w_next w /\
  (forall i, (forall b, basicAuth v = Some b -> ba_id b <> i) ->
             w_res w' !! i = w_res w !! i).
Proof.
  unfold Close, BasicAuthValidator_Close.
  destruct (basicAuth v) as [b|] eqn:Hb; simpl;
    (split; [done|]); (split; [done|]); (split; [done|]);
    (split; [done|]); (split; [done|]); split; try done.
  - split; [done|]. intros i Hi. apply lookup_insert_ne. by apply Hi.
Qed.

(** C8: [Init] does not call [Spec.Validate]; a gate initialised from a
    spec with no scheme passes every request, untouched. *)
Theorem Init_no_scheme_passes (s : Spec) (w : World) (ctx : HTTPContext) :
  Headers s = None -> JWT s = None -> Signature s = None ->
  OAuth2 s = None -> BasicAuth s = None ->
  handle (fst (Init CreateInstance s w)) ctx =
  {| result := ""; octx := ctx; calls := [] |}.
Proof.
  intros H1 H2 H3 H4 H5. unfold Init, reload.
  rewrite H1, H2, H3, H4, H5. reflexivity.
Qed.

(** ** Further properties of the filter *)

(** [handle] returns either the empty result or a result the kind
    declares in [Results]. *)
Theorem handle_result_declared (v : Validator) (ctx : HTTPContext) :
  result (handle v ctx) = "" \/ result (handle v ctx) ∈ kind_Results kind.
Proof.
  destruct (handle_result_cases v ctx) as [Hr | Hr]; [by left | right].
  rewrite Hr. simpl. set_solver.
Qed.

(** [Init] on a fresh instance configures exactly the schemes whose spec
    field is non-nil. *)
Theorem Init_fresh_configures_spec_fields (s : Spec) (w : World) (sch : scheme) :
  is_configured (fst (Init CreateInstance s w)) sch = spec_has s sch.
Proof.
  unfold Init, reload.
  destruct s as [b [h|] [j|] [sg|] [o|] [ba|]]; destruct sch; reflexivity.
Qed.

(** [reload] never clears a field: [Init] records the spec, and every
    validator whose spec field is nil is the one the validator had before. *)
Theorem Init_keeps_fields_of_nil_specs (v : Validator) (s : Spec) (w : World) :
  let v' := fst (Init v s w) in
  spec v' = Some s /\
  (Headers s = None -> headers v' = headers v) /\
  (JWT s = None -> jwt v' = jwt v) /\
  (Signature s = None -> signer v' = signer v) /\
  (OAuth2 s = None -> oauth2 v' = oauth2 v) /\
  (BasicAuth s = None -> basicAuth v' = basicAuth v).
Proof.
  unfold Init, reload.
  destruct s as [b [h|] [j|] [sg|] [o|] [ba|]]; simpl;
    repeat split; intros; discriminate || reflexivity.
Qed.

(** [Init] constructs, once each and in field order, the validators of the
    spec's non-nil fields, and releases nothing. *)
Theorem Init_constructs_in_field_order (v : Validator) (s : Spec) (w : World) :
  w_log (snd (Init v s w)) = w_log w ++ spec_constructions s /\
  Forall is_construction (spec_constructions s) /\
  length (spec_constructions s) = length (List.filter (spec_has s) precedence).
Proof.
  split; [apply reload_log | split; [apply spec_constructions_are_constructions |]].
  unfold spec_constructions.
  destruct s as [b [h|] [j|] [sg|] [o|] [ba|]]; reflexivity.
Qed.

(** [Inherit] between two generations that both use BasicAuth releases the
    previous generation's resource and leaves the new one's live, under a
    different id, when the previous id was allocated before. *)
Theorem Inherit_swaps_basic_auth_resource (s : Spec) (prev : Validator)
    (w : World) (b : BasicAuthValidator) (bs : SchemeSpec) :
  basicAuth prev = Some b -> ba_id b < w_next w -> BasicAuth s = Some bs ->
  let '(v', w') := Inherit CreateInstance s prev w in
  exists b', basicAuth v' = Some b' /\
    w_res w' !! ba_id b = Some ResReleased /\
    w_res w' !! ba_id b' = Some ResLive /\
    ba_id b' <> ba_id b.
Proof.
  intros Hb Hlt Hs.
  unfold Inherit, Close, BasicAuthValidator_Close. rewrite Hb.
  unfold Init, reload. rewrite Hs.
  destruct s as [bb h j sg o ba]; simpl in Hs; subst ba; simpl.
  destruct h, j, sg, o; simpl;
    eexists; (split; [reflexivity|]); simpl;
    (split; [rewrite lookup_insert_ne by lia; apply lookup_insert_eq |]);
    (split; [apply lookup_insert_eq | lia]).
Qed.

(** [Close] after [Init] of a fresh instance leaves no new resource live:
    whatever is live afterwards was live before [Init]. *)
Theorem Init_then_Close_leaves_nothing_live (s : Spec) (w : World) (i : nat) :
  let '(v1, w1) := Init CreateInstance s w in
  let '(_, w2) := Close v1 w1 in
  w_res w2 !! i = Some ResLive -> w_res w !! i = Some ResLive.
Proof.
  unfold Init, reload, Close, BasicAuthValidator_Close.
  destruct s as [b h j sg o [ba|]]; destruct h, j, sg, o; simpl; intros Hi; try exact Hi;
    (destruct (decide (i = w_next w)) as [->|Hne];
     [rewrite lookup_insert_eq in Hi; discriminate
     | rewrite lookup_insert_ne in Hi by congruence;
       rewrite lookup_insert_ne in Hi by congruence; exact Hi]).
Qed.

(** ** Witnesses: the hypotheses above hold on concrete inputs *)

Lemma handle_reject_status_witness :
  result (handle (fst (Init CreateInstance ex_spec_headers_jwt ex_world)) ex_ctx)
    = resultInvalid /\
  exists s err,
    last (calls (handle (fst (Init CreateInstance ex_spec_headers_jwt ex_world)) ex_ctx))
      = Some s /\
    verdict (fst (Init CreateInstance ex_spec_headers_jwt ex_world)) ex_req s = Some err /\
    resp_status (ctx_response
      (octx (handle (fst (Init CreateInstance ex_spec_headers_jwt ex_world)) ex_ctx))) =
      match s with
      | SchHeaders => StatusBadRequest
      | SchJWT | SchSignature | SchOAuth2 | SchBasicAuth => StatusUnauthorized
      end.
Proof.
  split; [reflexivity |].
  apply (handle_reject_status (fst (Init CreateInstance ex_spec_headers_jwt ex_world)) ex_ctx).
  reflexivity.
Defined.

Lemma handle_reject_tag_witness :
  result (handle (fst (Init CreateInstance ex_spec_headers_jwt ex_world)) ex_ctx)
    = resultInvalid /\
  exists s err,
    last (calls (handle (fst (Init CreateInstance ex_spec_headers_jwt ex_world)) ex_ctx))
      = Some s /\
    verdict (fst (Init CreateInstance ex_spec_headers_jwt ex_world)) ex_req s = Some err /\
    ctx_tags (octx (handle (fst (Init CreateInstance ex_spec_headers_jwt ex_world)) ex_ctx)) =
      ctx_tags ex_ctx ++ [Cat (Cat (tag_label s) " validator: ") err].
Proof.
  split; [reflexivity |].
  apply (handle_reject_tag (fst (Init CreateInstance ex_spec_headers_jwt ex_world)) ex_ctx).
  reflexivity.
Defined.

Lemma Init_no_scheme_passes_witness :
  Headers ex_spec_no_scheme = None /\ JWT ex_spec_no_scheme = None /\
  Signature ex_spec_no_scheme = None /\ OAuth2 ex_spec_no_scheme = None /\
  BasicAuth ex_spec_no_scheme = None /\
  handle (fst (Init CreateInstance ex_spec_no_scheme ex_world)) ex_ctx =
  {| result := ""; octx := ex_ctx; calls := [] |}.
Proof.
  split; [reflexivity |]. split; [reflexivity |]. split; [reflexivity |].
  split; [reflexivity |]. split; [reflexivity |].
  apply Init_no_scheme_passes; reflexivity.
Defined.

Lemma Inherit_swaps_basic_auth_resource_witness :
  basicAuth (fst ex_prev_gen) = Some {| ba_id := 0; ba_validate := fun _ => None |} /\
  0 < w_next (snd ex_prev_gen) /\
  BasicAuth ex_spec_headers_basic = Some {| ss_rule := fun _ => None |} /\
  let '(v', w') := Inherit CreateInstance ex_spec_headers_basic
                           (fst ex_prev_gen) (snd ex_prev_gen) in
  exists b', basicAuth v' = Some b' /\
    w_res w' !! 0 = Some ResReleased /\
    w_res w' !! ba_id b' = Some ResLive /\
    ba_id b' <> 0.
Proof.
  split; [reflexivity |]. split; [vm_compute; lia |]. split; [reflexivity |].
  apply (Inherit_swaps_basic_auth_resource ex_spec_headers_basic (fst ex_prev_gen)
           (snd ex_prev_gen) {| ba_id := 0; ba_validate := fun _ => None |}
           {| ss_rule := fun _ => None |}); [reflexivity | vm_compute; lia | reflexivity].
Defined.

Lemma Init_then_Close_leaves_nothing_live_witness :
  w_res (snd (Close (fst (Init CreateInstance ex_spec_headers_basic (snd ex_prev_gen)))
                    (snd (Init CreateInstance ex_spec_headers_basic (snd ex_prev_gen)))))
    !! 0 = Some ResLive /\
  w_res (snd ex_prev_gen) !! 0 = Some ResLive.
Proof.
  split; [reflexivity |].
  apply (Init_then_Close_leaves_nothing_live ex_spec_headers_basic (snd ex_prev_gen) 0).
  reflexivity.
Defined.
